(** * diffsims: the StructureLibrary class

    A shallow embedding of [diffsims/libraries/structure_library.py].

    Python objects are modelled by the attributes the class assigns
    ([instance]); methods run in a small state-and-exception monad whose
    state is the data the method can touch: the object [self] for
    [__init__], the object together with standard output for
    [get_library_size], the trace of calls to the external grid generator
    for [from_crystal_systems].  The dictionary [self.struct_lib] is a
    [gmap]; Python's unbounded [int] lengths are [nat]. *)

From stdpp Require Import gmap strings list pretty.

(** ** Exceptions and the method monad *)

Inductive exn : Type :=
| ValueError (msg : string)
| AttributeError (attr : string)
| IndexError (msg : string)
| OtherError (msg : string).

Inductive result (A : Type) : Type :=
| Ok (a : A)
| Raise (e : exn).
Arguments Ok {A} a.
Arguments Raise {A} e.

Definition M (S A : Type) : Type := S -> S * result A.

Definition ret {S A} (a : A) : M S A := fun s => (s, Ok a).

Definition raise {S A} (e : exn) : M S A := fun s => (s, Raise e).

Definition bind {S A B} (m : M S A) (k : A -> M S B) : M S B :=
  fun s =>
    match m s with
    | (s', Ok a) => k a s'
    | (s', Raise e) => (s', Raise e)
    end.

Notation "'do' x <- m ; k" := (bind m (fun x => k))
  (at level 10, x name, m at level 100, k at level 200).
Notation "m ;; k" := (bind m (fun _ => k))
  (at level 100, k at level 200, right associativity).

(** A computation that has no effect on the state, such as a call that
    returns a value or raises. *)
Definition lift {S A} (r : result A) : M S A := fun s => (s, r).

Definition modify {S} (f : S -> S) : M S unit := fun s => (f s, Ok tt).

(** [for x in xs: body x] *)
Fixpoint for_each {S X} (xs : list X) (body : X -> M S unit) : M S unit :=
  match xs with
  | [] => ret tt
  | x :: xs' => body x ;; for_each xs' body
  end.

(** A [for] loop that updates one local variable, here [acc]. *)
Fixpoint for_fold {S X A} (xs : list X) (acc : A) (body : A -> X -> M S A)
  : M S A :=
  match xs with
  | [] => ret acc
  | x :: xs' => do acc' <- body acc x ; for_fold xs' acc' body
  end.

(** Python's [zip] of three sequences stops at the shortest one. *)
Fixpoint zip3 {A B C} (a : list A) (b : list B) (c : list C)
  : list (A * B * C) :=
  match a, b, c with
  | x :: a', y :: b', z :: c' => (x, y, z) :: zip3 a' b' c'
  | _, _, _ => []
  end.

(** Reading an attribute that is not set raises [AttributeError]. *)
Definition getattr {S A} (proj : S -> option A) (name : string) : M S A :=
  fun s =>
    match proj s with
    | Some v => (s, Ok v)
    | None => (s, Raise (AttributeError name))
    end.

(** [l[i]] on a list, for an index that is not negative. *)
Definition getitem {S A} (l : list A) (i : nat) : M S A :=
  match l !! i with
  | Some v => ret v
  | None => raise (IndexError "list index out of range")
  end.

(** [range(n)] *)
Definition range (n : nat) : list nat := seq 0 n.

Definition newline : string := String (Ascii.ascii_of_nat 10) EmptyString.

(** ** Orientation sets

    An entry of [orientations] is either a list of rotations, each a tuple
    of Euler angles, or (the flat form) one bare tuple of angles.  The only
    operation the class applies to it is [len]. *)

Inductive OrientationSet (Angle : Type) : Type :=
| RotationList (rotations : list (list Angle))
| BareTuple (angles : list Angle).
Arguments RotationList {Angle} rotations.
Arguments BareTuple {Angle} angles.

Definition len {Angle} (o : OrientationSet Angle) : nat :=
  match o with
  | RotationList rotations => length rotations
  | BareTuple angles => length angles
  end.

Module StructureLibrary.

Section Class.

(** Identifiers are hashable keys (strings or ints) and [str_ident] is
    Python's [str] on them; structures and angles are opaque. *)
Context {K : Type} `{Countable K} (str_ident : K -> string).
Context {Structure Angle : Type}.

(** The attributes of an object of the class; [None] is an attribute
    that has not been assigned. *)
Record instance : Type := Instance {
  identifiers : option (list K);
  structures : option (list Structure);
  orientations : option (list (OrientationSet Angle));
  struct_lib : option (gmap K (Structure * OrientationSet Angle))
}.

(** The object as [__init__] receives it. *)
Definition fresh : instance := Instance None None None None.

Definition set_identifiers (v : list K) : M instance unit :=
  modify (fun self =>
    Instance (Some v) (structures self) (orientations self) (struct_lib self)).

Definition set_structures (v : list Structure) : M instance unit :=
  modify (fun self =>
    Instance (identifiers self) (Some v) (orientations self) (struct_lib self)).

Definition set_orientations (v : list (OrientationSet Angle))
  : M instance unit :=
  modify (fun self =>
    Instance (identifiers self) (structures self) (Some v) (struct_lib self)).

Definition set_struct_lib (v : gmap K (Structure * OrientationSet Angle))
  : M instance unit :=
  modify (fun self =>
    Instance (identifiers self) (structures self) (orientations self) (Some v)).

Definition identifiers_vs_structures (n m : nat) : string :=
  "Number of identifiers (" +:+ pretty n +:+ ") and structures ("
    +:+ pretty m +:+ ") must be the same.".

Definition identifiers_vs_orientations (n m : nat) : string :=
  "Number of identifiers (" +:+ pretty n +:+ ") and orientations ("
    +:+ pretty m +:+ ") must be the same.".

(** [StructureLibrary.__init__]; the state is [self].  The statement
    [self.struct_lib[ident] = (struct, ori)] reads the attribute and
    stores into the dictionary it holds. *)
Definition __init__ (identifiers : list K) (structures : list Structure)
    (orientations : list (OrientationSet Angle)) : M instance unit :=
  if negb (length identifiers =? length structures) then
    raise (ValueError (identifiers_vs_structures
                         (length identifiers) (length structures)))
  else if negb (length identifiers =? length orientations) then
    raise (ValueError (identifiers_vs_orientations
                         (length identifiers) (length orientations)))
  else
    set_identifiers identifiers ;;
    set_structures structures ;;
    set_orientations orientations ;;
    set_struct_lib empty ;;
    for_each (zip3 identifiers structures orientations)
      (fun '(ident, struct, ori) =>
         do d <- getattr struct_lib "struct_lib" ;
         set_struct_lib (<[ident := (struct, ori)]> d)).

(** The call [StructureLibrary(identifiers, structures, orientations)]:
    [__init__] runs on a new object; the object is the value of the call
    when [__init__] returns, and an exception leaves the call without
    value. *)
Definition new (identifiers : list K) (structures : list Structure)
    (orientations : list (OrientationSet Angle)) : result instance :=
  match __init__ identifiers structures orientations fresh with
  | (self, Ok _) => Ok self
  | (_, Raise e) => Raise e
  end.

(** [print] appends one line to standard output; the state of
    [get_library_size] is [self] and standard output. *)
Definition print (line : string) : M (instance * list string) unit :=
  modify (fun s => (fst s, snd s ++ [line])).

(** The expression [self.orientations[i]]. *)
Definition orientations_at (i : nat)
  : M (instance * list string) (OrientationSet Angle) :=
  do oris <- getattr (fun s => orientations (fst s)) "orientations" ;
  getitem oris i.

(** The expression [self.identifiers[i]]. *)
Definition identifiers_at (i : nat) : M (instance * list string) K :=
  do ids <- getattr (fun s => identifiers (fst s)) "identifiers" ;
  getitem ids i.

(** The text of [print(ident, "has", n, "number of entries.")] and of
    [print("\nIn total:", n, "number of entries")]: the arguments
    separated by one space. *)
Definition entry_line (ident : K) (n : nat) : string :=
  str_ident ident +:+ " has " +:+ pretty n +:+ " number of entries.".

Definition total_line (n : nat) : string :=
  newline +:+ "In total: " +:+ pretty n +:+ " number of entries".

(** [StructureLibrary.get_library_size] *)
Definition get_library_size (to_print : bool)
  : M (instance * list string) nat :=
  do oris <- getattr (fun s => orientations (fst s)) "orientations" ;
  do size_library <-
    for_fold (range (length oris)) 0 (fun size_library i =>
      do size_library <-
        (do ori <- orientations_at i ;
         if len ori =? 1 then ret (size_library + 1)
         else do ori <- orientations_at i ;
              ret (size_library + len ori)) ;
      (if to_print then
         do ident <- identifiers_at i ;
         do ori <- orientations_at i ;
         print (entry_line ident (len ori))
       else ret tt) ;;
      ret size_library) ;
  (if to_print then print (total_line size_library) else ret tt) ;;
  ret size_library.

(** The count the specification gives one entry: 1 when its length is
    1, and its length otherwise; and the total over all entries. *)
Definition entry_count (o : OrientationSet Angle) : nat :=
  if len o =? 1 then 1 else len o.

Definition total_count (oris : list (OrientationSet Angle)) : nat :=
  sum_list (entry_count <$> oris).

(** [get_library_size] with the statement [size_library +=
    len(self.orientations[i])] in place of the [if]/[else], to compare
    with the method above. *)
Definition get_library_size_plain (to_print : bool)
  : M (instance * list string) nat :=
  do oris <- getattr (fun s => orientations (fst s)) "orientations" ;
  do size_library <-
    for_fold (range (length oris)) 0 (fun size_library i =>
      do size_library <-
        (do ori <- orientations_at i ;
         ret (size_library + len ori)) ;
      (if to_print then
         do ident <- identifiers_at i ;
         do ori <- orientations_at i ;
         print (entry_line ident (len ori))
       else ret tt) ;;
      ret size_library) ;
  (if to_print then print (total_line size_library) else ret tt) ;;
  ret size_library.

(** The lines [get_library_size] prints when [to_print] is set. *)
Definition report (ids : list K) (oris : list (OrientationSet Angle))
  : list string :=
  zip_with (fun ident ori => entry_line ident (len ori)) ids oris.

(** The dictionary after the loop of [__init__] has run over [l]. *)
Definition inserted (d : gmap K (Structure * OrientationSet Angle))
    (l : list (K * Structure * OrientationSet Angle))
  : gmap K (Structure * OrientationSet Angle) :=
  foldl (fun d x => <[x.1.1 := (x.1.2, x.2)]> d) d l.

(** What a class method receives as [cls]: the call of the class. *)
Definition class : Type :=
  list K -> list Structure -> list (OrientationSet Angle) -> result instance.

(** [StructureLibrary.from_orientation_lists] *)
Definition from_orientation_lists (cls : class) (identifiers : list K)
    (structures : list Structure)
    (orientations : list (OrientationSet Angle)) : result instance :=
  cls identifiers structures orientations.

(** The grid generator is imported from
    [diffsims.generators.rotation_list_generators]; it is a parameter
    here, a function that returns an orientation set or raises.  The
    state of [from_crystal_systems] is the list of the calls made to
    it, oldest first. *)
Context {System Resolution : Type}.
Variable get_grid_streographic :
  System -> Resolution -> string -> result (OrientationSet Angle).

Definition call_get_grid_streographic (system : System)
    (resolution : Resolution) (equal : string)
  : M (list (System * Resolution * string)) (OrientationSet Angle) :=
  fun calls =>
    (calls ++ [(system, resolution, equal)],
     get_grid_streographic system resolution equal).

(** [StructureLibrary.from_crystal_systems] *)
Definition from_crystal_systems (cls : class) (identifiers : list K)
    (structures : list Structure) (systems : list System)
    (resolution : Resolution) (equal : string)
  : M (list (System * Resolution * string)) instance :=
  do orientations <-
    for_fold systems [] (fun orientations system =>
      do grid <- call_get_grid_streographic system resolution equal ;
      ret (orientations ++ [grid])) ;
  lift (cls identifiers structures orientations).

(** The default of the parameter [equal]. *)
Definition equal_default : string := "angle".

End Class.

End StructureLibrary.

Import StructureLibrary.

(** ** Data of the examples

    Identifiers, structures and crystal systems are strings, angles are
    integers and the resolution is a number of degrees. *)

Definition example_orientations : list (OrientationSet Z) :=
  [RotationList [[10; 10; 10]]; RotationList [[0; 0; 0]; [1; 1; 1]]]%Z.

Definition example_library : @instance string _ _ string Z :=
  Instance (Some ["a"; "b"]) (Some ["S1"; "S2"]) (Some example_orientations)
    (Some (<["b" := ("S2", RotationList [[0; 0; 0]; [1; 1; 1]]%Z)]>
             (<["a" := ("S1", RotationList [[10; 10; 10]]%Z)]> empty))).

(** A generator that returns [[(0,0,0)]] whatever its arguments. *)
Definition stub_generator (system : string) (resolution : nat)
    (equal : string) : result (OrientationSet Z) :=
  Ok (RotationList [[0; 0; 0]]%Z).

(** A generator that raises for the system ["bad"]. *)
Definition failing_generator (system : string) (resolution : nat)
    (equal : string) : result (OrientationSet Z) :=
  if String.eqb system "bad" then Raise (OtherError "unknown system")
  else Ok (RotationList [[0; 0; 0]]%Z).

(** The number of orientations that can be reached through the
    dictionary [struct_lib]: the lengths of the orientation sets of its
    values, added up. *)
Definition reachable_count {K : Type} `{Countable K} {Structure Angle : Type}
    (d : gmap K (Structure * OrientationSet Angle)) : nat :=
  sum_list_with (fun item => len item.2.2) (map_to_list d).

(** ** The method monad and the loops *)

Lemma bind_ext {S A B} (m m' : M S A) (k k' : A -> M S B) s :
  m s = m' s -> (forall a s', k a s' = k' a s') -> bind m k s = bind m' k' s.
Proof.
  intros Hm Hk. unfold bind. rewrite Hm.
  destruct (m' s) as [s' [a|e]]; [apply Hk | reflexivity].
Qed.

Lemma for_fold_ext {S X A} (xs : list X) (body body' : A -> X -> M S A) :
  (forall acc x s, body acc x s = body' acc x s) ->
  forall acc s, for_fold xs acc body s = for_fold xs acc body' s.
Proof.
  intros Hbody. induction xs as [|x xs IH]; intros acc s; simpl.
  - reflexivity.
  - apply bind_ext; [apply Hbody | intros; apply IH].
Qed.

Lemma zip3_lookup {A B C} (a : list A) (b : list B) (c : list C) i x y z :
  zip3 a b c !! i = Some (x, y, z) <->
  a !! i = Some x /\ b !! i = Some y /\ c !! i = Some z.
Proof.
  revert b c i.
  induction a as [|x0 a IH]; intros [|y0 b] [|z0 c] [|i]; simpl;
    try (split; [discriminate | intros (?&?&?); discriminate]).
  - split; [intros [= -> -> ->]; auto | intros ([= ->]&[= ->]&[= ->]); auto].
  - apply IH.
Qed.

Lemma zip3_keys {A B C} (a : list A) (b : list B) (c : list C) :
  length a = length b -> length a = length c ->
  (fun x : A * B * C => x.1.1) <$> zip3 a b c = a.
Proof.
  revert b c.
  induction a as [|x a IH]; intros [|y b] [|z c]; simpl; try discriminate.
  - reflexivity.
  - intros [= Hb] [= Hc]. f_equal. now apply IH.
Qed.

Section Construction.

Context {K : Type} `{Countable K} {Structure Angle : Type}.

Implicit Types (ids : list K) (structs : list Structure).
Implicit Types (oris : list (OrientationSet Angle)).
Implicit Types (d : gmap K (Structure * OrientationSet Angle)).
Implicit Types (self : @instance K _ _ Structure Angle).
Implicit Types (l : list (K * Structure * OrientationSet Angle)).

Lemma inserted_snoc d l k s o :
  inserted d (l ++ [(k, s, o)]) = <[k := (s, o)]> (inserted d l).
Proof. unfold inserted. now rewrite foldl_app. Qed.

Lemma inserted_dom d l :
  dom (inserted d l) = dom d ∪ list_to_set ((fun x => x.1.1) <$> l).
Proof.
  induction l as [|[[k s] o] l IH] using rev_ind.
  - simpl. now rewrite (right_id_L empty union).
  - rewrite inserted_snoc, dom_insert_L, IH, fmap_app, list_to_set_app_L.
    simpl. rewrite (right_id_L empty union).
    apply set_eq. intros x. rewrite !elem_of_union. tauto.
Qed.

(** A key of the dictionary maps to the value of the last item of the
    list that carries it. *)
Lemma inserted_lookup l k s o :
  inserted empty l !! k = Some (s, o) <->
  exists i, l !! i = Some (k, s, o) /\
    forall j s' o', i < j -> l !! j <> Some (k, s', o').
Proof.
  revert s o. induction l as [|[[k' s1] o1] l IH] using rev_ind; intros s o.
  - simpl. rewrite lookup_empty. split; [discriminate|].
    intros (i & Hi & _). now rewrite lookup_nil in Hi.
  - rewrite inserted_snoc. destruct (decide (k' = k)) as [->|Hne].
    + rewrite lookup_insert_eq. split.
      * intros [= -> ->]. exists (length l). split.
        -- now rewrite list_lookup_middle.
        -- intros j s' o' Hj Hl. apply lookup_lt_Some in Hl.
           rewrite length_app in Hl. simpl in Hl. lia.
      * intros (i & Hi & Hlast).
        destruct (decide (i = length l)) as [->|Hi'].
        -- rewrite list_lookup_middle in Hi by reflexivity. congruence.
        -- exfalso. apply (Hlast (length l) s1 o1).
           ++ apply lookup_lt_Some in Hi. rewrite length_app in Hi.
              simpl in Hi. lia.
           ++ now rewrite list_lookup_middle.
    + rewrite lookup_insert_ne by exact Hne. rewrite IH. split.
      * intros (i & Hi & Hlast). exists i. split.
        -- rewrite lookup_app_l; [exact Hi | now apply lookup_lt_Some in Hi].
        -- intros j s' o' Hj Hl.
           destruct (decide (j < length l)) as [Hlt|Hge].
           ++ rewrite lookup_app_l in Hl by exact Hlt. now apply (Hlast j s' o').
           ++ destruct (decide (j = length l)) as [->|Hj'].
              ** rewrite list_lookup_middle in Hl by reflexivity. congruence.
              ** apply lookup_lt_Some in Hl. rewrite length_app in Hl.
                 simpl in Hl. lia.
      * intros (i & Hi & Hlast).
        assert (i < length l) as Hlt.
        { destruct (decide (i = length l)) as [->|Hi'].
          - rewrite list_lookup_middle in Hi by reflexivity. congruence.
          - apply lookup_lt_Some in Hi. rewrite length_app in Hi.
            simpl in Hi. lia. }
        exists i. split.
        -- now rewrite lookup_app_l in Hi.
        -- intros j s' o' Hj Hl. apply (Hlast j s' o' Hj).
           rewrite lookup_app_l; [exact Hl | now apply lookup_lt_Some in Hl].
Qed.

(** The loop of [__init__], started with the attribute [struct_lib]
    set, stores every item and changes no other attribute. *)
Lemma init_loop l self d :
  struct_lib self = Some d ->
  for_each l
    (fun '(ident, struct, ori) =>
       do d <- getattr struct_lib "struct_lib" ;
       set_struct_lib (<[ident := (struct, ori)]> d)) self
  = (Instance (identifiers self) (structures self) (orientations self)
       (Some (inserted d l)), Ok tt).
Proof.
  revert self d. induction l as [|[[k s] o] l IH]; intros self d Hd.
  - simpl. unfold ret. rewrite <- Hd. now destruct self.
  - simpl. unfold bind at 1. unfold bind at 1, getattr. rewrite Hd.
    unfold set_struct_lib, modify. now rewrite (IH _ (<[k := (s, o)]> d)).
Qed.

Lemma init_returns ids structs oris self :
  length ids = length structs -> length ids = length oris ->
  __init__ ids structs oris self
  = (Instance (Some ids) (Some structs) (Some oris)
       (Some (inserted empty (zip3 ids structs oris))), Ok tt).
Proof.
  intros Hs Ho. unfold __init__.
  rewrite <- Hs, <- Ho, Nat.eqb_refl. simpl.
  unfold bind, set_identifiers, set_structures, set_orientations,
    set_struct_lib, modify. simpl.
  now rewrite (init_loop _ _ empty).
Qed.

Lemma init_raises_structures ids structs oris self :
  length ids <> length structs ->
  __init__ ids structs oris self
  = (self, Raise (ValueError (identifiers_vs_structures
                                (length ids) (length structs)))).
Proof.
  intros Hs. unfold __init__.
  apply Nat.eqb_neq in Hs. now rewrite Hs.
Qed.

Lemma init_raises_orientations ids structs oris self :
  length ids = length structs -> length ids <> length oris ->
  __init__ ids structs oris self
  = (self, Raise (ValueError (identifiers_vs_orientations
                                (length ids) (length oris)))).
Proof.
  intros Hs Ho. unfold __init__.
  apply Nat.eqb_neq in Ho. apply Nat.eqb_eq in Hs. now rewrite Hs, Ho.
Qed.

(** With the three lengths equal, the position of the last item of the
    zip that carries a key is the last position of [ids] that does. *)
Lemma zip3_last ids structs oris i k :
  length ids = length structs -> length ids = length oris ->
  (forall j s' o', i < j -> zip3 ids structs oris !! j <> Some (k, s', o'))
  <-> (forall j, i < j -> ids !! j <> Some k).
Proof.
  intros Hs Ho. split.
  - intros Hlast j Hj Hk.
    assert (j < length ids) as Hlt by now apply lookup_lt_Some in Hk.
    destruct (lookup_lt_is_Some_2 structs j) as [s' Hs']; [lia|].
    destruct (lookup_lt_is_Some_2 oris j) as [o' Ho']; [lia|].
    apply (Hlast j s' o' Hj). now apply zip3_lookup.
  - intros Hlast j s' o' Hj Hz. apply zip3_lookup in Hz as (Hk & _ & _).
    now apply (Hlast j Hj).
Qed.

(** An object returned by the call of the class holds the three
    inputs, and the inputs have one length. *)
Lemma new_inv ids structs oris lib :
  new ids structs oris = Ok lib ->
  lib = Instance (Some ids) (Some structs) (Some oris)
          (Some (inserted empty (zip3 ids structs oris))) /\
  length ids = length structs /\ length ids = length oris.
Proof.
  unfold new.
  destruct (decide (length ids = length structs)) as [Hs|Hs].
  - destruct (decide (length ids = length oris)) as [Ho|Ho].
    + rewrite init_returns by assumption. now intros [= <-].
    + now rewrite init_raises_orientations.
  - now rewrite init_raises_structures.
Qed.

(** C1: for inputs of equal length the call of the class returns an
    object whose attributes [identifiers], [structures] and
    [orientations] are the three inputs (so they have one length), and
    whose [struct_lib] has as many keys as [set(identifiers)] has
    elements, each mapped to the structure and the orientation set at
    the last position that carries the key. *)
Theorem construction_stores_inputs ids structs oris :
  length ids = length structs -> length ids = length oris ->
  exists lib d,
    new ids structs oris = Ok lib /\
    identifiers lib = Some ids /\
    structures lib = Some structs /\
    orientations lib = Some oris /\
    struct_lib lib = Some d /\
    length <$> identifiers lib = length <$> structures lib /\
    length <$> structures lib = length <$> orientations lib /\
    dom d = list_to_set ids /\
    size d = size (list_to_set ids : gset K) /\
    forall k s o,
      d !! k = Some (s, o) <->
      exists i, ids !! i = Some k /\ structs !! i = Some s /\
        oris !! i = Some o /\ forall j, i < j -> ids !! j <> Some k.
Proof.
  intros Hs Ho.
  exists (Instance (Some ids) (Some structs) (Some oris)
            (Some (inserted empty (zip3 ids structs oris)))).
  exists (inserted empty (zip3 ids structs oris)).
  assert (dom (inserted empty (zip3 ids structs oris))
          = (list_to_set ids : gset K)) as Hdom.
  { rewrite inserted_dom, zip3_keys, dom_empty_L by assumption.
    now rewrite (left_id_L empty union). }
  unfold new. rewrite init_returns by assumption. simpl.
  split_and!; try reflexivity; try congruence.
  - now rewrite <- Hdom, size_dom.
  - intros k s o. rewrite inserted_lookup. split.
    + intros (i & Hi & Hlast). apply zip3_lookup in Hi as (Hk & Hs' & Ho').
      exists i. repeat (split; [assumption|]).
      now apply (zip3_last ids structs oris).
    + intros (i & Hk & Hs' & Ho' & Hlast). exists i. split.
      * now apply zip3_lookup.
      * now apply zip3_last.
Qed.

(** C2: the call of the class fails exactly when the lengths disagree.
    When [identifiers] and [structures] differ in length, [__init__]
    raises the [ValueError] of the first check with the two lengths;
    when they agree and [orientations] differs, the second check runs
    and raises its [ValueError]; whenever [__init__] raises, the
    exception is a [ValueError] and the object is as it was before the
    call, so no attribute has been set. *)
Theorem construction_fails_on_mismatch ids structs oris self :
  (length ids <> length structs ->
     __init__ ids structs oris self
     = (self, Raise (ValueError (identifiers_vs_structures
                                   (length ids) (length structs)))) /\
     new ids structs oris
     = Raise (ValueError (identifiers_vs_structures
                            (length ids) (length structs)))) /\
  (length ids = length structs -> length ids <> length oris ->
     __init__ ids structs oris self
     = (self, Raise (ValueError (identifiers_vs_orientations
                                   (length ids) (length oris)))) /\
     new ids structs oris
     = Raise (ValueError (identifiers_vs_orientations
                            (length ids) (length oris)))) /\
  ((exists e, new ids structs oris = Raise e) <->
     length ids <> length structs \/ length ids <> length oris) /\
  (forall self' e,
     __init__ ids structs oris self = (self', Raise e) ->
     self' = self /\ exists msg, e = ValueError msg).
Proof.
  split; [|split; [|split]].
  - intros Hs. split; [now apply init_raises_structures|].
    unfold new. now rewrite init_raises_structures.
  - intros Hs Ho. split; [now apply init_raises_orientations|].
    unfold new. now rewrite init_raises_orientations.
  - unfold new. split.
    + intros [e He].
      destruct (decide (length ids = length structs)) as [Hs|Hs]; [|now left].
      destruct (decide (length ids = length oris)) as [Ho|Ho]; [|now right].
      rewrite init_returns in He by assumption. discriminate.
    + destruct (decide (length ids = length structs)) as [Hs|Hs].
      * intros [Hs'|Ho]; [contradiction|].
        rewrite init_raises_orientations by assumption. eauto.
      * intros _. rewrite init_raises_structures by assumption. eauto.
  - intros self' e.
    destruct (decide (length ids = length structs)) as [Hs|Hs].
    + destruct (decide (length ids = length oris)) as [Ho|Ho].
      * rewrite init_returns by assumption. discriminate.
      * rewrite init_raises_orientations by assumption.
        intros [= <- <-]. eauto.
    + rewrite init_raises_structures by assumption.
      intros [= <- <-]. eauto.
Qed.

End Construction.

Section Size.

Context {K : Type} `{Countable K} (str_ident : K -> string).
Context {Structure Angle : Type}.

Implicit Types (ids : list K) (structs : list Structure).
Implicit Types (oris pre post : list (OrientationSet Angle)).
Implicit Types (self lib : @instance K _ _ Structure Angle).
Implicit Types (out : list string).

Lemma orientations_at_run self out oris i o :
  orientations self = Some oris -> oris !! i = Some o ->
  orientations_at i (self, out) = ((self, out), Ok o).
Proof.
  intros Ho Hi. unfold orientations_at, bind, getattr, getitem. simpl.
  now rewrite Ho, Hi.
Qed.

Lemma identifiers_at_run self out ids i k :
  identifiers self = Some ids -> ids !! i = Some k ->
  identifiers_at i (self, out) = ((self, out), Ok k).
Proof.
  intros Ho Hi. unfold identifiers_at, bind, getattr, getitem. simpl.
  now rewrite Ho, Hi.
Qed.

Lemma entry_count_len (o : OrientationSet Angle) : entry_count o = len o.
Proof.
  unfold entry_count. destruct (len o =? 1) eqn:E; [|reflexivity].
  now apply Nat.eqb_eq in E.
Qed.

Lemma total_count_len oris : total_count oris = sum_list (len <$> oris).
Proof.
  unfold total_count. induction oris as [|o oris IH]; csimpl.
  - reflexivity.
  - now rewrite entry_count_len, IH.
Qed.

(** The [if]/[else] of the loop adds the count of the entry. *)
Lemma count_step self out oris i o acc :
  orientations self = Some oris -> oris !! i = Some o ->
  (do ori <- orientations_at i ;
   if len ori =? 1 then ret (acc + 1)
   else do ori <- orientations_at i ;
        ret (acc + len ori)) (self, out)
  = ((self, out), Ok (acc + entry_count o)).
Proof.
  intros Ho Hi. pose proof (orientations_at_run self out _ _ _ Ho Hi) as Hrun.
  unfold bind at 1. rewrite Hrun. unfold entry_count.
  destruct (len o =? 1); [reflexivity|].
  unfold bind. now rewrite Hrun.
Qed.

(** The loop of [get_library_size] from position [length pre] on: the
    object is not changed, one line per entry is printed when
    [to_print] is set, and the counts of the entries are added. *)
Lemma size_loop to_print self post :
  forall pre ipre ipost acc out,
  orientations self = Some (pre ++ post) ->
  (to_print = true ->
     identifiers self = Some (ipre ++ ipost) /\
     length ipre = length pre /\ length post <= length ipost) ->
  for_fold (seq (length pre) (length post)) acc
    (fun size_library i =>
       do size_library <-
         (do ori <- orientations_at i ;
          if len ori =? 1 then ret (size_library + 1)
          else do ori <- orientations_at i ;
               ret (size_library + len ori)) ;
       (if to_print then
          do ident <- identifiers_at i ;
          do ori <- orientations_at i ;
          print (entry_line str_ident ident (len ori))
        else ret tt) ;;
       ret size_library) (self, out)
  = ((self, out ++ (if to_print then report str_ident ipost post else [])),
     Ok (acc + total_count post)).
Proof.
  induction post as [|o post IH]; intros pre ipre ipost acc out Ho Hids.
  - simpl. unfold ret, report. rewrite zip_with_nil_r.
    destruct to_print; now rewrite app_nil_r, Nat.add_0_r.
  - assert ((pre ++ o :: post) !! length pre = Some o) as Hi
      by now rewrite list_lookup_middle.
    assert (orientations self = Some ((pre ++ [o]) ++ post)) as Ho'
      by now rewrite <- app_assoc.
    assert (length (pre ++ [o]) = S (length pre)) as Hlen
      by (rewrite length_app; simpl; lia).
    pose proof (orientations_at_run self out _ _ _ Ho Hi) as Hrun.
    cbn [length seq for_fold]. unfold bind at 1. unfold bind at 1.
    rewrite (count_step self out _ _ o acc Ho Hi).
    destruct to_print.
    + destruct (Hids eq_refl) as (Hi' & Hpre & Hpost).
      destruct ipost as [|k ipost]; [simpl in Hpost; lia|].
      assert ((ipre ++ k :: ipost) !! length pre = Some k) as Hk
        by now rewrite list_lookup_middle.
      unfold bind at 1. unfold bind at 1.
      rewrite (identifiers_at_run self out _ _ _ Hi' Hk).
      unfold bind at 1. rewrite Hrun. unfold print, modify, ret.
      cbn [fst snd]. rewrite <- Hlen.
      rewrite (IH (pre ++ [o]) (ipre ++ [k]) ipost); [|exact Ho'|].
      * unfold total_count, report. csimpl.
        rewrite <- app_assoc. simpl. f_equal. f_equal. lia.
      * intros _. rewrite <- app_assoc. simpl. split; [exact Hi'|].
        rewrite !length_app. simpl in *. lia.
    + unfold bind at 1. unfold ret at 1. unfold ret at 1. rewrite <- Hlen.
      rewrite (IH (pre ++ [o]) ipre ipost); [|exact Ho'|discriminate].
      unfold total_count. csimpl. rewrite app_nil_r. f_equal. f_equal. lia.
Qed.

(** [get_library_size] on an object whose attributes are set: the
    object is returned as it was, the report is appended to standard
    output when [to_print] is set, and the value is the total count. *)
Lemma get_library_size_run to_print self ids oris out :
  orientations self = Some oris ->
  (to_print = true ->
     identifiers self = Some ids /\ length oris <= length ids) ->
  get_library_size str_ident to_print (self, out)
  = ((self,
      out ++ (if to_print
              then report str_ident ids oris
                     ++ [total_line (total_count oris)]
              else [])),
     Ok (total_count oris)).
Proof.
  intros Ho Hids.
  pose proof (size_loop to_print self oris [] [] ids 0 out Ho) as Hloop.
  simpl in Hloop.
  unfold get_library_size, range. unfold bind at 1, getattr.
  cbn [fst]. rewrite Ho. unfold bind at 1. rewrite Hloop.
  - destruct to_print; unfold bind, print, modify, ret; cbn [fst snd].
    + now rewrite <- app_assoc.
    + reflexivity.
  - intros Hp. destruct (Hids Hp) as [Hi Hlen]. auto.
Qed.

(** Reading [self.orientations[i]] leaves the state as it is. *)
Lemma orientations_at_state i
    (s s' : @instance K _ _ Structure Angle * list string)
    (r : result (OrientationSet Angle)) :
  orientations_at i s = (s', r) -> s' = s.
Proof.
  unfold orientations_at, bind, getattr, getitem, ret, raise.
  destruct (orientations (fst s)) as [oris|]; [|now intros [= <- _]].
  destruct (oris !! i); now intros [= <- _].
Qed.

(** The method and the loop without the [if]/[else] agree in every
    state: on the object, on standard output and on the value or the
    exception. *)
Lemma get_library_size_plain_eq to_print
    (s : @instance K _ _ Structure Angle * list string) :
  get_library_size str_ident to_print s
  = get_library_size_plain str_ident to_print s.
Proof.
  unfold get_library_size, get_library_size_plain.
  apply bind_ext; [reflexivity|]. intros oris s1.
  apply bind_ext; [|reflexivity].
  apply for_fold_ext. intros acc i s2.
  apply bind_ext; [|reflexivity].
  unfold bind at 1 3.
  destruct (orientations_at i s2) as [s3 [o|e]] eqn:E; [|reflexivity].
  apply orientations_at_state in E as E'. subst s3.
  destruct (len o =? 1) eqn:E1.
  - apply Nat.eqb_eq in E1. now rewrite E1.
  - unfold bind. now rewrite E.
Qed.

(** C9: for a library returned by the call of the class,
    [get_library_size] returns one integer [n] with [to_print] false
    and with [to_print] true; in both runs the object is returned as it
    was; with [to_print] false standard output is not written, with
    [to_print] true the report is appended to it. *)
Theorem to_print_only_prints ids structs oris lib out :
  new ids structs oris = Ok lib ->
  exists n,
    get_library_size str_ident false (lib, out) = ((lib, out), Ok n) /\
    get_library_size str_ident true (lib, out)
    = ((lib, out ++ report str_ident ids oris ++ [total_line n]), Ok n).
Proof.
  intros Hnew. apply new_inv in Hnew as (-> & Hs & Ho).
  exists (total_count oris). split.
  - rewrite (get_library_size_run false _ ids oris); [|reflexivity|discriminate].
    now rewrite app_nil_r.
  - rewrite (get_library_size_run true _ ids oris); [reflexivity..|].
    intros _. split; [reflexivity|lia].
Qed.

(** The value of [get_library_size] on a library returned by the call
    of the class. *)
Lemma get_library_size_value ids structs oris lib to_print out :
  new ids structs oris = Ok lib ->
  snd (get_library_size str_ident to_print (lib, out))
  = Ok (total_count oris).
Proof.
  intros Hnew. apply new_inv in Hnew as (-> & Hs & Ho).
  rewrite (get_library_size_run to_print _ ids oris); [reflexivity..|].
  intros _. split; [reflexivity|lia].
Qed.

(** C10: the [if]/[else] of [get_library_size] changes nothing.  The
    method and the loop that adds [len(self.orientations[i])] at every
    position agree in every state and for both values of [to_print];
    on a library the value is the sum of the lengths; an entry that is
    a bare tuple of three angles adds 3 to it and an empty entry adds
    0. *)
Theorem special_case_is_vacuous :
  (forall to_print (s : @instance K _ _ Structure Angle * list string),
     get_library_size str_ident to_print s
     = get_library_size_plain str_ident to_print s) /\
  (forall ids structs oris lib to_print out,
     new ids structs oris = Ok lib ->
     snd (get_library_size str_ident to_print (lib, out))
     = Ok (sum_list (len <$> oris))) /\
  (forall ids structs pre post (a b c : Angle) lib to_print out,
     new ids structs (pre ++ BareTuple [a; b; c] :: post) = Ok lib ->
     snd (get_library_size str_ident to_print (lib, out))
     = Ok (sum_list (len <$> pre) + 3 + sum_list (len <$> post))) /\
  (forall ids structs pre post lib to_print out,
     new ids structs (pre ++ RotationList [] :: post) = Ok lib ->
     snd (get_library_size str_ident to_print (lib, out))
     = Ok (sum_list (len <$> pre) + 0 + sum_list (len <$> post))).
Proof.
  assert (forall ids structs pre o post lib to_print out,
    new ids structs (pre ++ o :: post) = Ok lib ->
    snd (get_library_size str_ident to_print (lib, out))
    = Ok (sum_list (len <$> pre) + len o + sum_list (len <$> post)))
    as Hentry.
  { intros ids structs pre o post lib to_print out Hnew.
    rewrite (get_library_size_value _ _ _ _ _ _ Hnew), total_count_len.
    rewrite fmap_app, sum_list_with_app. csimpl. f_equal. unfold id. lia. }
  split_and!.
  - apply get_library_size_plain_eq.
  - intros ids structs oris lib to_print out Hnew.
    now rewrite (get_library_size_value _ _ _ _ _ _ Hnew), total_count_len.
  - intros. now apply (Hentry ids structs pre (BareTuple [a; b; c])).
  - intros. now apply (Hentry ids structs pre (RotationList [])).
Qed.

End Size.

Section Factories.

Context {K : Type} `{Countable K} {Structure Angle : Type}.
Context {System Resolution : Type}.

Implicit Types (ids : list K) (structs : list Structure).
Implicit Types (oris grids : list (OrientationSet Angle)).
Implicit Types (systems : list System) (res : Resolution) (eq : string).
Implicit Types (calls : list (System * Resolution * string)).
Implicit Types
  (gen : System -> Resolution -> string -> result (OrientationSet Angle)).

(** The loop of [from_crystal_systems], when the generator returns for
    every system: one call per system is recorded, in the order of
    [systems], and the grids are collected in that order. *)
Lemma generate_loop gen res eq systems grids :
  Forall2 (fun system grid => gen system res eq = Ok grid) systems grids ->
  forall acc calls,
  for_fold systems acc
    (fun orientations system =>
       do grid <- call_get_grid_streographic gen system res eq ;
       ret (orientations ++ [grid])) calls
  = (calls ++ ((fun system => (system, res, eq)) <$> systems),
     Ok (acc ++ grids)).
Proof.
  induction 1 as [|system grid systems grids Hgen _ IH]; intros acc calls.
  - simpl. unfold ret. now rewrite !app_nil_r.
  - cbn [for_fold]. unfold bind at 1. unfold bind at 1.
    unfold call_get_grid_streographic at 1. rewrite Hgen. unfold ret at 1.
    rewrite IH. csimpl. now rewrite <- !app_assoc.
Qed.

Lemma from_crystal_systems_run gen ids structs systems res eq calls grids :
  Forall2 (fun system grid => gen system res eq = Ok grid) systems grids ->
  from_crystal_systems gen new ids structs systems res eq calls
  = (calls ++ ((fun system => (system, res, eq)) <$> systems),
     new ids structs grids).
Proof.
  intros Hgen. unfold from_crystal_systems, bind.
  now rewrite (generate_loop gen res eq systems grids Hgen).
Qed.

(** A generator that raises ends the loop: the exception is the
    outcome of [from_crystal_systems] and the class is not called. *)
Lemma from_crystal_systems_generator_raises
    gen ids structs pre system post res eq calls grids e :
  Forall2 (fun system grid => gen system res eq = Ok grid) pre grids ->
  gen system res eq = Raise e ->
  from_crystal_systems gen new ids structs (pre ++ system :: post)
    res eq calls
  = (calls ++ ((fun system => (system, res, eq)) <$> pre ++ [system]),
     Raise e).
Proof.
  intros Hpre He. unfold from_crystal_systems. unfold bind at 1.
  assert (forall acc calls,
    for_fold (pre ++ system :: post) acc
      (fun orientations system =>
         do grid <- call_get_grid_streographic gen system res eq ;
         ret (orientations ++ [grid])) calls
    = (calls ++ ((fun system => (system, res, eq)) <$> pre ++ [system]),
       Raise e)) as Hloop.
  { clear calls. induction Hpre as [|s g pre grids Hs _ IH]; intros acc calls.
    - cbn [app for_fold]. unfold bind, call_get_grid_streographic.
      now rewrite He.
    - cbn [app for_fold]. unfold bind at 1. unfold bind at 1.
      unfold call_get_grid_streographic at 1. rewrite Hs. unfold ret at 1.
      rewrite IH. csimpl. now rewrite <- !app_assoc. }
  now rewrite Hloop.
Qed.

(** C6: called on the class, [from_orientation_lists] has the outcome of
    the call of the class on the same three arguments: the same object,
    attribute by attribute, or the same exception. *)
Theorem from_orientation_lists_is_constructor ids structs oris :
  from_orientation_lists new ids structs oris = new ids structs oris /\
  (forall lib,
     from_orientation_lists new ids structs oris = Ok lib <->
     new ids structs oris = Ok lib) /\
  (forall e,
     from_orientation_lists new ids structs oris = Raise e <->
     new ids structs oris = Raise e).
Proof. unfold from_orientation_lists. repeat split; auto. Qed.

(** C7: when the generator returns for every system,
    [from_crystal_systems] calls it once per element of [systems], in
    order, with [(system, resolution, equal)], and its outcome is that
    of the call of the class on [identifiers], [structures] and the
    grids in that order.  With a generator that returns one grid [g]
    whatever its arguments, and [systems] as long as [identifiers], the
    calls are the same, the [orientations] of a library the method
    returns is [g] repeated [len(identifiers)] times, and a library is
    returned when [structures] has that length too. *)
Theorem from_crystal_systems_generates :
  (forall gen ids structs systems res eq calls grids,
     Forall2 (fun system grid => gen system res eq = Ok grid)
       systems grids ->
     from_crystal_systems gen new ids structs systems res eq calls
     = (calls ++ ((fun system => (system, res, eq)) <$> systems),
        new ids structs grids)) /\
  (forall (g : OrientationSet Angle) ids structs systems res eq calls,
     length systems = length ids ->
     let run :=
       from_crystal_systems (fun _ _ _ => Ok g) new ids structs systems
         res eq calls in
     fst run = calls ++ ((fun system => (system, res, eq)) <$> systems) /\
     (forall lib,
        snd run = Ok lib ->
        identifiers lib = Some ids /\ structures lib = Some structs /\
        orientations lib = Some (replicate (length ids) g)) /\
     (length structs = length ids -> exists lib, snd run = Ok lib)).
Proof.
  split.
  - intros. now apply from_crystal_systems_run.
  - intros g ids structs systems res eq calls Hlen run.
    assert (Forall2 (fun system grid =>
              (fun _ _ _ => Ok g) system res eq = Ok grid)
              systems (replicate (length ids) g)) as Hgen.
    { rewrite <- Hlen. clear. induction systems; constructor; auto. }
    subst run. rewrite (from_crystal_systems_run _ _ _ _ _ _ _ _ Hgen).
    cbn [fst snd]. split; [reflexivity|]. split.
    + intros lib Hnew. now apply new_inv in Hnew as (-> & _ & _).
    + intros Hs. unfold new.
      rewrite init_returns; [eauto|lia|now rewrite length_replicate].
Qed.

(** C8: [from_crystal_systems] does not compare [systems] with
    [identifiers].  With [identifiers] and [structures] of one length
    and [systems] of another, shorter or longer, and a generator that
    returns for every system, every system is passed to the generator
    and the call then raises the [ValueError] of the second check of
    [__init__], with the lengths of [identifiers] and of [systems]. *)
Theorem from_crystal_systems_length_unchecked
    gen ids structs systems res eq calls grids :
  length ids = length structs ->
  length systems <> length ids ->
  Forall2 (fun system grid => gen system res eq = Ok grid) systems grids ->
  from_crystal_systems gen new ids structs systems res eq calls
  = (calls ++ ((fun system => (system, res, eq)) <$> systems),
     Raise (ValueError (identifiers_vs_orientations
                          (length ids) (length systems)))).
Proof.
  intros Hs Hne Hgen. rewrite (from_crystal_systems_run _ _ _ _ _ _ _ _ Hgen).
  apply Forall2_length in Hgen. unfold new.
  rewrite init_raises_orientations by congruence. now rewrite Hgen.
Qed.

End Factories.

(** ** The examples of the specification

    Identifiers are strings, printed as they are; angles are integers. *)

(** C3: on a library, [get_library_size] returns the sum over the
    positions of [orientations] of 1 for an entry of length 1 and of the
    length of the entry otherwise; with the one-element list
    [[(10,10,10)]] for ["a"] and [[(0,0,0),(1,1,1)]] for ["b"] it
    returns 3. *)
Theorem get_library_size_counts :
  (forall (K : Type) `(Countable K) (str_ident : K -> string)
     (Structure Angle : Type) (ids : list K) (structs : list Structure)
     (oris : list (OrientationSet Angle)) lib to_print out,
     new ids structs oris = Ok lib ->
     snd (get_library_size str_ident to_print (lib, out))
     = Ok (sum_list ((fun o => if len o =? 1 then 1 else len o) <$> oris))) /\
  (forall (Structure : Type) (S1 S2 : Structure) out,
     exists lib,
       new ["a"; "b"] [S1; S2]
         [RotationList [[10; 10; 10]];
          RotationList [[0; 0; 0]; [1; 1; 1]]]%Z = Ok lib /\
       get_library_size (fun ident => ident) false (lib, out)
       = ((lib, out), Ok 3)).
Proof.
  split.
  - intros K ? ? str_ident Structure Angle ids structs oris lib to_print out Hnew.
    now rewrite (get_library_size_value _ _ _ _ _ _ _ Hnew).
  - intros Structure S1 S2 out. eexists. split.
    + unfold new. rewrite init_returns by reflexivity. reflexivity.
    + erewrite (get_library_size_run _ false _ []);
        [|reflexivity|discriminate].
      now rewrite app_nil_r.
Qed.

(** C4, as the code has it: an entry stored as the bare tuple
    [(10,10,10)] adds its length, 3, to the value of [get_library_size],
    and the same rotation in a one-element list adds 1. *)
Theorem get_library_size_bare_tuple :
  forall (Structure : Type) (S : Structure) out,
    (exists lib,
       new ["a"] [S] [BareTuple [10; 10; 10]%Z] = Ok lib /\
       get_library_size (fun ident => ident) false (lib, out)
       = ((lib, out), Ok 3)) /\
    (exists lib,
       new ["a"] [S] [RotationList [[10; 10; 10]%Z]] = Ok lib /\
       get_library_size (fun ident => ident) false (lib, out)
       = ((lib, out), Ok 1)).
Proof.
  intros Structure S out. split; eexists; split;
    try (unfold new; rewrite init_returns by reflexivity; reflexivity);
    (erewrite (get_library_size_run _ false _ []);
       [|reflexivity|discriminate]);
    now rewrite app_nil_r.
Qed.

(** C5: with identifiers [["a","a"]], structures [[S1,S2]] and
    orientations [[[(0,0,0)],[(1,1,1)]]] the call of the class returns a
    library; its [struct_lib] has the one key ["a"], mapped to
    [(S2, [(1,1,1)])]; its [identifiers] is the input, of length 2. *)
Theorem duplicate_identifiers_last_wins :
  forall (Structure : Type) (S1 S2 : Structure),
    exists lib d,
      new ["a"; "a"] [S1; S2]
        [RotationList [[0; 0; 0]]; RotationList [[1; 1; 1]]]%Z = Ok lib /\
      struct_lib lib = Some d /\
      d !! "a" = Some (S2, RotationList [[1; 1; 1]]%Z) /\
      size d = 1 /\
      identifiers lib = Some ["a"; "a"] /\
      length <$> identifiers lib = Some 2 /\
      length <$> structures lib = Some 2 /\
      length <$> orientations lib = Some 2.
Proof.
  intros Structure S1 S2. eexists. eexists. split.
  - unfold new. rewrite init_returns by reflexivity. reflexivity.
  - cbn [struct_lib identifiers structures orientations zip3 inserted foldl
           fst snd].
    split_and!; reflexivity.
Qed.

(** ** The theorems at concrete inputs *)

Lemma construction_stores_inputs_witness :
  exists lib d,
    new ["a"; "b"; "a"] ["S1"; "S2"; "S3"]
      [BareTuple [1; 2; 3]; RotationList []; RotationList [[0; 0; 0]]]%Z
    = Ok lib /\
    struct_lib lib = Some d /\
    size d = 2 /\
    d !! "a" = Some ("S3", RotationList [[0; 0; 0]]%Z).
Proof.
  destruct (construction_stores_inputs ["a"; "b"; "a"] ["S1"; "S2"; "S3"]
              [BareTuple [1; 2; 3]; RotationList [];
               RotationList [[0; 0; 0]]]%Z eq_refl eq_refl)
    as (lib & d & Hnew & _ & _ & _ & Hd & _ & _ & _ & Hsize & Hlookup).
  exists lib, d. split_and!.
  - exact Hnew.
  - exact Hd.
  - rewrite Hsize. reflexivity.
  - apply Hlookup. exists 2. split_and!; try reflexivity.
    intros j Hj Hk. apply lookup_lt_Some in Hk. simpl in Hk. lia.
Defined.

Lemma construction_fails_on_mismatch_witness :
  new ["a"; "b"] ["S1"] example_orientations
  = Raise (ValueError
             "Number of identifiers (2) and structures (1) must be the same.")
  /\
  __init__ ["a"; "b"] ["S1"; "S2"] [BareTuple [10; 10; 10]%Z] fresh
  = (fresh,
     Raise (ValueError
              "Number of identifiers (2) and orientations (1) must be the same.")).
Proof.
  split.
  - apply (construction_fails_on_mismatch
             ["a"; "b"] ["S1"] example_orientations fresh).
    simpl. lia.
  - apply (construction_fails_on_mismatch
             ["a"; "b"] ["S1"; "S2"] [BareTuple [10; 10; 10]%Z] fresh).
    + reflexivity.
    + simpl. lia.
Defined.

Lemma get_library_size_counts_witness :
  snd (get_library_size (fun ident => ident) true (example_library, []))
  = Ok 3.
Proof.
  apply (proj1 get_library_size_counts string _ _ (fun ident => ident)
           string Z ["a"; "b"] ["S1"; "S2"] example_orientations
           example_library true []).
  reflexivity.
Defined.

Lemma from_orientation_lists_is_constructor_witness :
  from_orientation_lists new ["a"; "b"] ["S1"; "S2"] example_orientations
  = Ok example_library.
Proof.
  apply (from_orientation_lists_is_constructor
           ["a"; "b"] ["S1"; "S2"] example_orientations).
  reflexivity.
Defined.

Lemma from_crystal_systems_generates_witness :
  from_crystal_systems stub_generator new ["a"; "b"] ["S1"; "S2"]
    ["cubic"; "hexagonal"] 1 equal_default []
  = ([("cubic", 1, "angle"); ("hexagonal", 1, "angle")],
     new ["a"; "b"] ["S1"; "S2"]
       [RotationList [[0; 0; 0]]; RotationList [[0; 0; 0]]]%Z).
Proof.
  apply (proj1 from_crystal_systems_generates stub_generator
           ["a"; "b"] ["S1"; "S2"] ["cubic"; "hexagonal"] 1 equal_default []).
  repeat constructor.
Defined.

Lemma from_crystal_systems_length_unchecked_witness :
  from_crystal_systems stub_generator new ["a"; "b"] ["S1"; "S2"]
    ["cubic"] 1 "angle" []
  = ([("cubic", 1, "angle")],
     Raise (ValueError
              "Number of identifiers (2) and orientations (1) must be the same."))
  /\
  from_crystal_systems stub_generator new ["a"; "b"] ["S1"; "S2"]
    ["cubic"; "hexagonal"; "trigonal"] 1 "angle" []
  = ([("cubic", 1, "angle"); ("hexagonal", 1, "angle");
      ("trigonal", 1, "angle")],
     Raise (ValueError
              "Number of identifiers (2) and orientations (3) must be the same.")).
Proof.
  split.
  - apply (from_crystal_systems_length_unchecked stub_generator
             ["a"; "b"] ["S1"; "S2"] ["cubic"] 1 "angle" []
             [RotationList [[0; 0; 0]]%Z]).
    + reflexivity.
    + simpl. lia.
    + repeat constructor.
  - apply (from_crystal_systems_length_unchecked stub_generator
             ["a"; "b"] ["S1"; "S2"] ["cubic"; "hexagonal"; "trigonal"]
             1 "angle" []
             [RotationList [[0; 0; 0]]; RotationList [[0; 0; 0]];
              RotationList [[0; 0; 0]]]%Z).
    + reflexivity.
    + simpl. lia.
    + repeat constructor.
Defined.

Lemma to_print_only_prints_witness :
  exists n,
    get_library_size (fun ident => ident) false (example_library, [])
    = ((example_library, []), Ok n) /\
    get_library_size (fun ident => ident) true (example_library, [])
    = ((example_library,
        ["a has 1 number of entries."; "b has 2 number of entries.";
         total_line n]), Ok n).
Proof.
  apply (to_print_only_prints (fun ident => ident)
           ["a"; "b"] ["S1"; "S2"] example_orientations example_library []).
  reflexivity.
Defined.

Lemma special_case_is_vacuous_witness :
  snd (get_library_size (fun ident => ident) false (example_library, []))
  = Ok (1 + 2).
Proof.
  apply (proj1 (proj2 (special_case_is_vacuous (fun ident => ident)))
           ["a"; "b"] ["S1"; "S2"] example_orientations example_library
           false []).
  reflexivity.
Defined.

(** ** Further properties of the constructor *)

Lemma zip3_app {A B C} (a a' : list A) (b b' : list B) (c c' : list C) :
  length a = length b -> length a = length c ->
  zip3 (a ++ a') (b ++ b') (c ++ c') = zip3 a b c ++ zip3 a' b' c'.
Proof.
  revert b c.
  induction a as [|x a IH]; intros [|y b] [|z c]; simpl; try discriminate.
  - reflexivity.
  - intros [= Hb] [= Hc]. f_equal. now apply IH.
Qed.

Section MoreConstruction.

Context {K : Type} `{Countable K} {Structure Angle : Type}.

Implicit Types (ids : list K) (structs : list Structure).
Implicit Types (oris : list (OrientationSet Angle)).
Implicit Types (d : gmap K (Structure * OrientationSet Angle)).
Implicit Types (self lib : @instance K _ _ Structure Angle).
Implicit Types (l : list (K * Structure * OrientationSet Angle)).

Lemma zip3_dom ids structs oris :
  length ids = length structs -> length ids = length oris ->
  dom (inserted empty (zip3 ids structs oris)) = (list_to_set ids : gset K).
Proof.
  intros Hs Ho. rewrite inserted_dom, zip3_keys, dom_empty_L by assumption.
  now rewrite (left_id_L empty union).
Qed.

(** A list has at least as many items as distinct items, and as many
    only when no item repeats. *)
Lemma size_list_to_set_le ids :
  size (list_to_set ids : gset K) <= length ids /\
  (size (list_to_set ids : gset K) = length ids -> NoDup ids).
Proof.
  induction ids as [|k ids [IHle IHeq]].
  - rewrite list_to_set_nil, size_empty. split; [simpl; lia | constructor].
  - rewrite list_to_set_cons. cbn [length].
    destruct (decide (k ∈ ids)) as [Hin|Hnin].
    + replace ({[k]} ∪ list_to_set ids : gset K) with
        (list_to_set ids : gset K).
      * split; lia.
      * apply set_eq. intros x.
        rewrite elem_of_union, elem_of_singleton, !elem_of_list_to_set.
        split; [auto | intros [->|]; auto].
    + rewrite size_union, size_singleton.
      * split; [lia|]. intros [= Hsize]. constructor; auto.
      * intros x Hx Hx'. apply elem_of_singleton in Hx as ->.
        now apply elem_of_list_to_set in Hx'.
Qed.

(** Starting the loop of [__init__] from a dictionary [d] gives the
    dictionary built from the empty one, completed by [d]. *)
Lemma inserted_union d l : inserted d l = inserted empty l ∪ d.
Proof.
  induction l as [|[[k s] o] l IH] using rev_ind.
  - simpl. now rewrite (left_id_L empty union).
  - now rewrite !inserted_snoc, IH, insert_union_l.
Qed.

Lemma inserted_app d l l' : inserted d (l ++ l') = inserted (inserted d l) l'.
Proof. unfold inserted. now rewrite foldl_app. Qed.

(** X1: when no identifier repeats, [struct_lib] loses nothing: it has
    [len(identifiers)] keys and [struct_lib[identifiers[i]]] is
    [(structures[i], orientations[i])] at every position [i]. *)
Theorem unique_identifiers_lookup ids structs oris lib :
  NoDup ids ->
  new ids structs oris = Ok lib ->
  exists d,
    struct_lib lib = Some d /\
    size d = length ids /\
    forall i k s o,
      ids !! i = Some k -> structs !! i = Some s -> oris !! i = Some o ->
      d !! k = Some (s, o).
Proof.
  intros Hnodup Hnew. apply new_inv in Hnew as (-> & Hs & Ho).
  eexists. split; [reflexivity|]. split.
  - rewrite <- size_dom, zip3_dom by assumption.
    now apply size_list_to_set.
  - intros i k s o Hk Hs' Ho'. apply inserted_lookup. exists i. split.
    + now apply zip3_lookup.
    + intros j s' o' Hj Hz. apply zip3_lookup in Hz as (Hk' & _ & _).
      pose proof (NoDup_lookup _ _ _ _ Hnodup Hk Hk'). lia.
Qed.

(** X2: [struct_lib] never has more keys than [identifiers] has items,
    and it has as many exactly when no identifier repeats. *)
Theorem struct_lib_size_bound ids structs oris lib :
  new ids structs oris = Ok lib ->
  exists d,
    struct_lib lib = Some d /\
    size d <= length ids /\
    (size d = length ids <-> NoDup ids).
Proof.
  intros Hnew. apply new_inv in Hnew as (-> & Hs & Ho).
  eexists. split; [reflexivity|].
  rewrite <- size_dom, zip3_dom by assumption.
  destruct (size_list_to_set_le ids) as [Hle Heq].
  split; [exact Hle|]. split; [exact Heq|]. apply size_list_to_set.
Qed.

(** X3: constructing from two inputs put end to end gives the two
    sequences put end to end and, as [struct_lib], the union of the two
    dictionaries in which the second library wins on a shared key. *)
Theorem concatenation_merges ids1 structs1 oris1 lib1 ids2 structs2 oris2 lib2 :
  new ids1 structs1 oris1 = Ok lib1 ->
  new ids2 structs2 oris2 = Ok lib2 ->
  exists d1 d2,
    struct_lib lib1 = Some d1 /\ struct_lib lib2 = Some d2 /\
    new (ids1 ++ ids2) (structs1 ++ structs2) (oris1 ++ oris2)
    = Ok (Instance (Some (ids1 ++ ids2)) (Some (structs1 ++ structs2))
            (Some (oris1 ++ oris2)) (Some (d2 ∪ d1))) /\
    (forall k v, d2 !! k = Some v -> (d2 ∪ d1) !! k = Some v) /\
    (forall k, d2 !! k = None -> (d2 ∪ d1) !! k = d1 !! k).
Proof.
  intros Hnew1 Hnew2.
  apply new_inv in Hnew1 as (-> & Hs1 & Ho1).
  apply new_inv in Hnew2 as (-> & Hs2 & Ho2).
  eexists. eexists. split; [reflexivity|]. split; [reflexivity|]. split.
  - unfold new. rewrite init_returns by (rewrite !length_app; lia).
    rewrite zip3_app, inserted_app by assumption.
    now rewrite (inserted_union (inserted empty _)).
  - split.
    + intros k v Hk. now apply lookup_union_Some_l.
    + intros k Hk. now apply lookup_union_r.
Qed.

(** X4: [__init__] run again on an object that already has attributes
    replaces the four of them: the object is then the one the call of
    the class returns for the same arguments, whatever it held before;
    no key of an earlier [struct_lib] is kept. *)
Theorem init_replaces_attributes ids structs oris self lib :
  new ids structs oris = Ok lib ->
  __init__ ids structs oris self = (lib, Ok tt).
Proof.
  intros Hnew. apply new_inv in Hnew as (-> & Hs & Ho).
  now apply init_returns.
Qed.

End MoreConstruction.

(** ** Further properties of [get_library_size] *)

Lemma zip3_lengths {A B C} (f : C -> nat)
    (a : list A) (b : list B) (c : list C) :
  length a = length b -> length a = length c ->
  sum_list_with (fun x : A * B * C => f x.2) (zip3 a b c) = sum_list (f <$> c).
Proof.
  revert b c.
  induction a as [|x a IH]; intros [|y b] [|z c]; simpl; try discriminate.
  - reflexivity.
  - intros [= Hb] [= Hc]. unfold id at 1. f_equal. now apply IH.
Qed.

Section MoreSize.

Context {K : Type} `{Countable K} (str_ident : K -> string).
Context {Structure Angle : Type}.

Implicit Types (ids : list K) (structs : list Structure).
Implicit Types (oris pre post : list (OrientationSet Angle)).
Implicit Types (d : gmap K (Structure * OrientationSet Angle)).
Implicit Types (self lib : @instance K _ _ Structure Angle).
Implicit Types (l : list (K * Structure * OrientationSet Angle)).
Implicit Types (out : list string).

Lemma total_count_app oris oris' :
  total_count (oris ++ oris') = total_count oris + total_count oris'.
Proof. unfold total_count. now rewrite fmap_app, sum_list_with_app. Qed.

(** The loop of [get_library_size] with [to_print] set, when
    [identifiers] ends before [orientations]: the lines of the entries
    that have an identifier are printed, then [self.identifiers[i]]
    raises. *)
Lemma size_loop_raises to_print self post :
  forall pre (ipre ipost : list K) acc out,
  to_print = true ->
  orientations self = Some (pre ++ post) ->
  identifiers self = Some (ipre ++ ipost) ->
  length ipre = length pre -> length ipost < length post ->
  for_fold (seq (length pre) (length post)) acc
    (fun size_library i =>
       do size_library <-
         (do ori <- orientations_at i ;
          if len ori =? 1 then ret (size_library + 1)
          else do ori <- orientations_at i ;
               ret (size_library + len ori)) ;
       (if to_print then
          do ident <- identifiers_at i ;
          do ori <- orientations_at i ;
          print (entry_line str_ident ident (len ori))
        else ret tt) ;;
       ret size_library) (self, out)
  = ((self, out ++ report str_ident ipost post),
     Raise (IndexError "list index out of range")).
Proof.
  induction post as [|o post IH];
    intros pre ipre ipost acc out -> Ho Hi Hpre Hpost; [simpl in Hpost; lia|].
  assert ((pre ++ o :: post) !! length pre = Some o) as Hlook
    by now rewrite list_lookup_middle.
  assert (orientations self = Some ((pre ++ [o]) ++ post)) as Ho'
    by now rewrite <- app_assoc.
  assert (length (pre ++ [o]) = S (length pre)) as Hlen
    by (rewrite length_app; simpl; lia).
  pose proof (orientations_at_run self out _ _ _ Ho Hlook) as Hrun.
  cbn [length seq for_fold]. unfold bind at 1. unfold bind at 1.
  rewrite (count_step self out _ _ o acc Ho Hlook).
  destruct ipost as [|k ipost].
  - unfold bind at 1. unfold bind at 1.
    unfold identifiers_at, bind, getattr, getitem. cbn [fst]. rewrite Hi.
    rewrite lookup_ge_None_2 by (rewrite length_app; simpl; lia).
    unfold raise, report. simpl. now rewrite app_nil_r.
  - assert ((ipre ++ k :: ipost) !! length pre = Some k) as Hk
      by now rewrite list_lookup_middle.
    unfold bind at 1. unfold bind at 1.
    rewrite (identifiers_at_run self out _ _ _ Hi Hk).
    unfold bind at 1. rewrite Hrun. unfold print, modify, ret.
    cbn [fst snd]. rewrite <- Hlen.
    rewrite (IH (pre ++ [o]) (ipre ++ [k]) ipost); try assumption.
    + unfold report. csimpl. now rewrite <- app_assoc.
    + reflexivity.
    + now rewrite <- app_assoc.
    + rewrite !length_app. simpl. lia.
    + simpl in Hpost. lia.
Qed.

(** The orientations reachable through the dictionary built by the loop
    of [__init__] are at most those of the items, and all of them when
    no key repeats. *)
Lemma reachable_count_inserted l :
  reachable_count (inserted empty l) <= sum_list_with (fun x => len x.2) l /\
  (NoDup ((fun x => x.1.1) <$> l) ->
   reachable_count (inserted empty l) = sum_list_with (fun x => len x.2) l).
Proof.
  induction l as [|[[k s] o] l [IHle IHeq]] using rev_ind.
  - unfold reachable_count. simpl. rewrite map_to_list_empty. simpl.
    split; [lia | reflexivity].
  - rewrite inserted_snoc, sum_list_with_app. simpl.
    destruct (inserted empty l !! k) as [v|] eqn:Hk.
    + assert (reachable_count (inserted empty l)
              = len v.2 + reachable_count (delete k (inserted empty l)))
        as Hdel.
      { unfold reachable_count.
        now rewrite <- (map_to_list_delete _ _ _ Hk). }
      assert (reachable_count (<[k := (s, o)]> (inserted empty l))
              = len o + reachable_count (delete k (inserted empty l)))
        as Hins.
      { unfold reachable_count. rewrite <- insert_delete_eq.
        now rewrite map_to_list_insert by apply lookup_delete_eq. }
      split; [lia|]. intros Hnodup. exfalso.
      rewrite fmap_app in Hnodup. apply NoDup_app in Hnodup as (_ & Hdisj & _).
      apply (Hdisj k).
      * apply (elem_of_list_to_set (C := gset K)).
        assert (k ∈ dom (inserted empty l)) as Hdom
          by (apply elem_of_dom; eauto).
        rewrite inserted_dom, dom_empty_L in Hdom.
        now rewrite (left_id_L empty union) in Hdom.
      * simpl. apply list_elem_of_here.
    + assert (reachable_count (<[k := (s, o)]> (inserted empty l))
              = len o + reachable_count (inserted empty l)) as Hins.
      { unfold reachable_count. now rewrite map_to_list_insert by exact Hk. }
      split; [lia|]. intros Hnodup.
      rewrite fmap_app in Hnodup. apply NoDup_app in Hnodup as (Hl & _ & _).
      rewrite Hins, (IHeq Hl). lia.
Qed.

(** X5: the size of a library built from two inputs put end to end is
    the sum of the sizes of the two libraries. *)
Theorem size_of_concatenation
    ids1 structs1 oris1 lib1 ids2 structs2 oris2 lib2 lib to_print out :
  new ids1 structs1 oris1 = Ok lib1 ->
  new ids2 structs2 oris2 = Ok lib2 ->
  new (ids1 ++ ids2) (structs1 ++ structs2) (oris1 ++ oris2) = Ok lib ->
  exists n1 n2,
    snd (get_library_size str_ident to_print (lib1, out)) = Ok n1 /\
    snd (get_library_size str_ident to_print (lib2, out)) = Ok n2 /\
    snd (get_library_size str_ident to_print (lib, out)) = Ok (n1 + n2).
Proof.
  intros Hnew1 Hnew2 Hnew.
  exists (total_count oris1), (total_count oris2).
  rewrite (get_library_size_value _ _ _ _ _ _ _ Hnew1).
  rewrite (get_library_size_value _ _ _ _ _ _ _ Hnew2).
  rewrite (get_library_size_value _ _ _ _ _ _ _ Hnew).
  now rewrite total_count_app.
Qed.

(** X6: on an object whose [identifiers] is shorter than its
    [orientations], [get_library_size] with [to_print] false returns the
    sum of the lengths, and with [to_print] true it prints the lines of
    the entries that have an identifier and raises [IndexError]: no
    total is printed and no value is returned.  The object is not
    changed in either run. *)
Theorem report_needs_identifiers self ids oris out :
  orientations self = Some oris ->
  identifiers self = Some ids ->
  length ids < length oris ->
  get_library_size str_ident false (self, out)
  = ((self, out), Ok (sum_list (len <$> oris))) /\
  get_library_size str_ident true (self, out)
  = ((self, out ++ report str_ident ids oris),
     Raise (IndexError "list index out of range")).
Proof.
  intros Ho Hi Hlen. split.
  - rewrite (get_library_size_run str_ident false self ids oris out Ho)
      by discriminate.
    now rewrite app_nil_r, total_count_len.
  - pose proof (size_loop_raises true self oris [] [] ids 0 out
                  eq_refl Ho Hi eq_refl Hlen) as Hloop.
    simpl in Hloop.
    unfold get_library_size, range. unfold bind at 1, getattr.
    cbn [fst]. rewrite Ho. unfold bind at 1. now rewrite Hloop.
Qed.

(** X7: the size of a library does not depend on the order of its
    entries. *)
Theorem size_of_permutation
    ids structs oris lib ids' structs' oris' lib' to_print out :
  new ids structs oris = Ok lib ->
  new ids' structs' oris' = Ok lib' ->
  oris ≡ₚ oris' ->
  snd (get_library_size str_ident to_print (lib, out))
  = snd (get_library_size str_ident to_print (lib', out)).
Proof.
  intros Hnew Hnew' Hperm.
  rewrite (get_library_size_value _ _ _ _ _ _ _ Hnew).
  rewrite (get_library_size_value _ _ _ _ _ _ _ Hnew').
  unfold total_count. now rewrite Hperm.
Qed.

(** X8: the orientations reachable through [struct_lib] are at most as
    many as [get_library_size] returns, which counts every position, and
    exactly as many when no identifier repeats. *)
Theorem reachable_count_le_size ids structs oris lib to_print out :
  new ids structs oris = Ok lib ->
  exists d n,
    struct_lib lib = Some d /\
    snd (get_library_size str_ident to_print (lib, out)) = Ok n /\
    reachable_count d <= n /\
    (NoDup ids -> reachable_count d = n).
Proof.
  intros Hnew. rewrite (get_library_size_value _ _ _ _ _ _ _ Hnew).
  apply new_inv in Hnew as (-> & Hs & Ho).
  eexists. eexists. split; [reflexivity|]. split; [reflexivity|].
  rewrite total_count_len, <- (zip3_lengths len ids structs oris Hs Ho).
  destruct (reachable_count_inserted (zip3 ids structs oris)) as [Hle Heq].
  split; [exact Hle|]. intros Hnodup. apply Heq.
  now rewrite zip3_keys.
Qed.

End MoreSize.

(** ** Further properties of [from_crystal_systems] *)

Section MoreFactories.

Context {K : Type} `{Countable K} (str_ident : K -> string).
Context {Structure Angle : Type}.
Context {System Resolution : Type}.

Implicit Types (ids : list K) (structs : list Structure).
Implicit Types (oris grids : list (OrientationSet Angle)).
Implicit Types (systems pre post : list System).
Implicit Types (res : Resolution) (eq : string).
Implicit Types (calls : list (System * Resolution * string)).
Implicit Types
  (gen : System -> Resolution -> string -> result (OrientationSet Angle)).
Implicit Types (cls : @class K _ _ Structure Angle).

(** Either the generator returns for every system, or there is a first
    system for which it raises. *)
Lemma generator_outcomes gen res eq systems :
  (exists grids,
     Forall2 (fun system grid => gen system res eq = Ok grid) systems grids) \/
  (exists pre system post grids e,
     systems = pre ++ system :: post /\
     Forall2 (fun system grid => gen system res eq = Ok grid) pre grids /\
     gen system res eq = Raise e).
Proof.
  induction systems as [|s systems IH].
  - left. exists []. constructor.
  - destruct (gen s res eq) as [g|e] eqn:Hs.
    + destruct IH as [[grids Hall]|(pre & system & post & grids & e & -> & Hpre & He)].
      * left. exists (g :: grids). now constructor.
      * right. exists (s :: pre), system, post, (g :: grids), e.
        split; [reflexivity|]. split; [now constructor | exact He].
    + right. exists [], s, systems, [], e.
      split; [reflexivity|]. split; [constructor | exact Hs].
Qed.

(** The loop of [from_crystal_systems] ends at the first system for
    which the generator raises. *)
Lemma generate_loop_raises gen res eq pre system post grids e :
  Forall2 (fun system grid => gen system res eq = Ok grid) pre grids ->
  gen system res eq = Raise e ->
  forall acc calls,
  for_fold (pre ++ system :: post) acc
    (fun orientations system =>
       do grid <- call_get_grid_streographic gen system res eq ;
       ret (orientations ++ [grid])) calls
  = (calls ++ ((fun system => (system, res, eq)) <$> pre ++ [system]),
     Raise e).
Proof.
  intros Hpre He.
  induction Hpre as [|s g pre grids Hs _ IH]; intros acc calls.
  - cbn [app for_fold]. unfold bind, call_get_grid_streographic.
    now rewrite He.
  - cbn [app for_fold]. unfold bind at 1. unfold bind at 1.
    unfold call_get_grid_streographic at 1. rewrite Hs. unfold ret at 1.
    rewrite IH. csimpl. now rewrite <- !app_assoc.
Qed.

Lemma from_crystal_systems_returns
    gen cls ids structs systems res eq calls grids :
  Forall2 (fun system grid => gen system res eq = Ok grid) systems grids ->
  from_crystal_systems gen cls ids structs systems res eq calls
  = (calls ++ ((fun system => (system, res, eq)) <$> systems),
     cls ids structs grids).
Proof.
  intros Hgen. unfold from_crystal_systems, bind.
  now rewrite (generate_loop gen res eq systems grids Hgen).
Qed.

(** X9: an exception of the generator is the outcome of
    [from_crystal_systems], whatever class it is called on: the systems
    after the one that raises are not passed to the generator and the
    class is not called, so a length mismatch is not reported. *)
Theorem generator_exception_propagates
    gen cls ids structs pre system post res eq calls grids e :
  Forall2 (fun system grid => gen system res eq = Ok grid) pre grids ->
  gen system res eq = Raise e ->
  from_crystal_systems gen cls ids structs (pre ++ system :: post)
    res eq calls
  = (calls ++ ((fun system => (system, res, eq)) <$> pre ++ [system]),
     Raise e).
Proof.
  intros Hpre He. unfold from_crystal_systems. unfold bind at 1.
  now rewrite (generate_loop_raises gen res eq pre system post grids e Hpre He).
Qed.

(** X10: whatever the generator and the class do, the calls that
    [from_crystal_systems] adds to the log are those of the first [n]
    systems, in order and with [resolution] and [equal] as given, for
    some [n]; when [n] is less than [len(systems)] the method has
    raised. *)
Theorem generator_calls_are_a_prefix
    gen cls ids structs systems res eq calls :
  exists n,
    n <= length systems /\
    fst (from_crystal_systems gen cls ids structs systems res eq calls)
    = calls ++ ((fun system => (system, res, eq)) <$> take n systems) /\
    (n < length systems ->
     exists e,
       snd (from_crystal_systems gen cls ids structs systems res eq calls)
       = Raise e).
Proof.
  destruct (generator_outcomes gen res eq systems)
    as [[grids Hall]|(pre & system & post & grids & e & -> & Hpre & He)].
  - exists (length systems). split; [lia|].
    rewrite (from_crystal_systems_returns _ _ _ _ _ _ _ _ _ Hall).
    cbn [fst snd]. rewrite firstn_all. split; [reflexivity | lia].
  - exists (S (length pre)). split; [rewrite length_app; simpl; lia|].
    assert (from_crystal_systems gen cls ids structs (pre ++ system :: post)
              res eq calls
            = (calls ++ ((fun system => (system, res, eq)) <$> pre ++ [system]),
               Raise e)) as ->.
    { unfold from_crystal_systems. unfold bind at 1.
      now rewrite (generate_loop_raises gen res eq pre system post grids e). }
    cbn [fst snd]. split; [|intros _; now exists e].
    replace (pre ++ system :: post) with ((pre ++ [system]) ++ post)
      by now rewrite <- app_assoc.
    rewrite take_app_length'; [reflexivity|].
    rewrite length_app. simpl. lia.
Qed.

(** X11: when [from_crystal_systems], called on the class, returns a
    library, [systems] has the length of [identifiers] and of
    [structures], the generator was called once for every system, and
    [orientations[i]] of the library is the grid the generator returns
    for [systems[i]]. *)
Theorem from_crystal_systems_success
    gen ids structs systems res eq calls calls' lib :
  from_crystal_systems gen new ids structs systems res eq calls
  = (calls', Ok lib) ->
  length systems = length ids /\
  length structs = length ids /\
  calls' = calls ++ ((fun system => (system, res, eq)) <$> systems) /\
  identifiers lib = Some ids /\
  structures lib = Some structs /\
  exists grids,
    orientations lib = Some grids /\
    Forall2 (fun system grid => gen system res eq = Ok grid) systems grids.
Proof.
  destruct (generator_outcomes gen res eq systems)
    as [[grids Hall]|(pre & system & post & grids & e & -> & Hpre & He)].
  - rewrite (from_crystal_systems_returns _ _ _ _ _ _ _ _ _ Hall).
    intros [= <- Hnew]. apply new_inv in Hnew as (-> & Hs & Ho).
    apply Forall2_length in Hall as Hlen.
    split_and!; try reflexivity; try lia. now exists grids.
  - now rewrite (from_crystal_systems_generator_raises
                   gen ids structs pre system post res eq calls grids e).
Qed.

(** X12: the size of a library that [from_crystal_systems] returns is
    the sum of the lengths of the grids the generator returns for the
    systems. *)
Theorem size_of_generated_library
    gen ids structs systems res eq calls calls' lib out :
  from_crystal_systems gen new ids structs systems res eq calls
  = (calls', Ok lib) ->
  exists grids,
    Forall2 (fun system grid => gen system res eq = Ok grid) systems grids /\
    get_library_size str_ident false (lib, out)
    = ((lib, out), Ok (sum_list (len <$> grids))).
Proof.
  destruct (generator_outcomes gen res eq systems)
    as [[grids Hall]|(pre & system & post & grids & e & -> & Hpre & He)].
  - rewrite (from_crystal_systems_returns _ _ _ _ _ _ _ _ _ Hall).
    intros [= <- Hnew]. apply new_inv in Hnew as (-> & Hs & Ho).
    exists grids. split; [exact Hall|].
    rewrite (get_library_size_run str_ident false _ ids grids out);
      [|reflexivity|discriminate].
    now rewrite app_nil_r, total_count_len.
  - now rewrite (from_crystal_systems_generator_raises
                   gen ids structs pre system post res eq calls grids e).
Qed.

End MoreFactories.

(** ** The further properties at concrete inputs *)

Lemma unique_identifiers_lookup_witness :
  exists d,
    struct_lib example_library = Some d /\
    size d = 2 /\
    d !! "b" = Some ("S2", RotationList [[0; 0; 0]; [1; 1; 1]]%Z).
Proof.
  destruct (unique_identifiers_lookup
              ["a"; "b"] ["S1"; "S2"] example_orientations example_library)
    as (d & Hd & Hsize & Hlookup).
  - apply (bool_decide_unpack _). vm_compute. exact I.
  - reflexivity.
  - exists d. split; [exact Hd|]. split; [exact Hsize|].
    now apply (Hlookup 1).
Defined.

Lemma struct_lib_size_bound_witness :
  exists d,
    struct_lib example_library = Some d /\
    size d <= 2 /\
    (size d = 2 <-> NoDup ["a"; "b"]).
Proof.
  apply (struct_lib_size_bound
           ["a"; "b"] ["S1"; "S2"] example_orientations example_library).
  reflexivity.
Defined.

Lemma concatenation_merges_witness :
  exists d1 d2,
    struct_lib example_library = Some d1 /\
    struct_lib example_library = Some d2 /\
    new (["a"; "b"] ++ ["a"; "b"]) (["S1"; "S2"] ++ ["S1"; "S2"])
      (example_orientations ++ example_orientations)
    = Ok (Instance (Some (["a"; "b"] ++ ["a"; "b"]))
            (Some (["S1"; "S2"] ++ ["S1"; "S2"]))
            (Some (example_orientations ++ example_orientations))
            (Some (d2 ∪ d1))).
Proof.
  destruct (concatenation_merges
              ["a"; "b"] ["S1"; "S2"] example_orientations example_library
              ["a"; "b"] ["S1"; "S2"] example_orientations example_library
              eq_refl eq_refl)
    as (d1 & d2 & Hd1 & Hd2 & Hnew & _).
  exists d1, d2. auto.
Defined.

Lemma init_replaces_attributes_witness :
  __init__ ["a"; "b"] ["S1"; "S2"] example_orientations
    (Instance (Some ["c"]) None None (Some empty))
  = (example_library, Ok tt).
Proof.
  apply (init_replaces_attributes
           ["a"; "b"] ["S1"; "S2"] example_orientations
           (Instance (Some ["c"]) None None (Some empty)) example_library).
  reflexivity.
Defined.

Lemma size_of_concatenation_witness :
  exists n1 n2,
    snd (get_library_size (fun ident => ident) false (example_library, []))
    = Ok n1 /\
    snd (get_library_size (fun ident => ident) false (example_library, []))
    = Ok n2 /\
    snd (get_library_size (fun ident => ident) false
           (Instance (Some ["a"; "b"; "a"; "b"])
              (Some ["S1"; "S2"; "S1"; "S2"])
              (Some (example_orientations ++ example_orientations))
              (Some (inserted empty
                       (zip3 ["a"; "b"; "a"; "b"] ["S1"; "S2"; "S1"; "S2"]
                          (example_orientations ++ example_orientations)))),
            []))
    = Ok (n1 + n2).
Proof.
  apply (size_of_concatenation (fun ident => ident)
           ["a"; "b"] ["S1"; "S2"] example_orientations example_library
           ["a"; "b"] ["S1"; "S2"] example_orientations example_library);
    reflexivity.
Defined.

Lemma report_needs_identifiers_witness :
  get_library_size (fun ident => ident) false
    (Instance (Some ["a"]) (Some ["S1"]) (Some example_orientations) None, [])
  = ((Instance (Some ["a"]) (Some ["S1"]) (Some example_orientations) None,
      []), Ok 3) /\
  get_library_size (fun ident => ident) true
    (Instance (Some ["a"]) (Some ["S1"]) (Some example_orientations) None, [])
  = ((Instance (Some ["a"]) (Some ["S1"]) (Some example_orientations) None,
      ["a has 1 number of entries."]),
     Raise (IndexError "list index out of range")).
Proof.
  apply (report_needs_identifiers (fun ident => ident)
           (Instance (Some ["a"]) (Some ["S1"]) (Some example_orientations)
              None)
           ["a"] example_orientations []).
  - reflexivity.
  - reflexivity.
  - simpl. lia.
Defined.

Lemma size_of_permutation_witness :
  snd (get_library_size (fun ident => ident) false (example_library, []))
  = snd (get_library_size (fun ident => ident) false
           (Instance (Some ["b"; "a"]) (Some ["S2"; "S1"])
              (Some (reverse example_orientations))
              (Some (inserted empty
                       (zip3 ["b"; "a"] ["S2"; "S1"]
                          (reverse example_orientations)))), [])).
Proof.
  apply (size_of_permutation (fun ident => ident)
           ["a"; "b"] ["S1"; "S2"] example_orientations example_library
           ["b"; "a"] ["S2"; "S1"] (reverse example_orientations)).
  - reflexivity.
  - reflexivity.
  - apply perm_swap.
Defined.

Lemma reachable_count_le_size_witness :
  exists d n,
    struct_lib example_library = Some d /\
    snd (get_library_size (fun ident => ident) false (example_library, []))
    = Ok n /\
    reachable_count d <= n /\
    (NoDup ["a"; "b"] -> reachable_count d = n).
Proof.
  apply (reachable_count_le_size (fun ident => ident)
           ["a"; "b"] ["S1"; "S2"] example_orientations example_library).
  reflexivity.
Defined.

Lemma generator_exception_propagates_witness :
  from_crystal_systems failing_generator new ["a"; "b"] ["S1"; "S2"]
    (["cubic"] ++ "bad" :: ["hexagonal"]) 1 "angle" []
  = ([("cubic", 1, "angle"); ("bad", 1, "angle")],
     Raise (OtherError "unknown system")).
Proof.
  apply (generator_exception_propagates failing_generator new
           ["a"; "b"] ["S1"; "S2"] ["cubic"] "bad" ["hexagonal"] 1 "angle" []
           [RotationList [[0; 0; 0]]%Z]).
  - repeat constructor.
  - reflexivity.
Defined.

Lemma generator_calls_are_a_prefix_witness :
  exists n,
    n <= 3 /\
    fst (from_crystal_systems failing_generator new ["a"; "b"] ["S1"; "S2"]
           ["cubic"; "bad"; "hexagonal"] 1 "angle" [])
    = (fun system => (system, 1, "angle"))
        <$> take n ["cubic"; "bad"; "hexagonal"].
Proof.
  destruct (generator_calls_are_a_prefix failing_generator new
              ["a"; "b"] ["S1"; "S2"] ["cubic"; "bad"; "hexagonal"]
              1 "angle" [])
    as (n & Hn & Hcalls & _).
  exists n. split; [exact Hn | exact Hcalls].
Defined.

Lemma from_crystal_systems_success_witness :
  length ["cubic"; "hexagonal"] = length ["a"; "b"] /\
  exists grids,
    Forall2 (fun system grid => stub_generator system 1 "angle" = Ok grid)
      ["cubic"; "hexagonal"] grids.
Proof.
  destruct (from_crystal_systems_success stub_generator
              ["a"; "b"] ["S1"; "S2"] ["cubic"; "hexagonal"] 1 "angle" []
              [("cubic", 1, "angle"); ("hexagonal", 1, "angle")]
              (Instance (Some ["a"; "b"]) (Some ["S1"; "S2"])
                 (Some [RotationList [[0; 0; 0]];
                        RotationList [[0; 0; 0]]]%Z)
                 (Some (inserted empty
                          (zip3 ["a"; "b"] ["S1"; "S2"]
                             [RotationList [[0; 0; 0]];
                              RotationList [[0; 0; 0]]]%Z))))
              eq_refl)
    as (Hlen & _ & _ & _ & _ & grids & _ & Hall).
  split; [exact Hlen|]. now exists grids.
Defined.

Lemma size_of_generated_library_witness :
  exists grids,
    Forall2 (fun system grid => stub_generator system 1 "angle" = Ok grid)
      ["cubic"; "hexagonal"] grids /\
    get_library_size (fun ident => ident) false
      (Instance (Some ["a"; "b"]) (Some ["S1"; "S2"])
         (Some [RotationList [[0; 0; 0]]; RotationList [[0; 0; 0]]]%Z)
         (Some (inserted empty
                  (zip3 ["a"; "b"] ["S1"; "S2"]
                     [RotationList [[0; 0; 0]];
                      RotationList [[0; 0; 0]]]%Z))), [])
    = ((Instance (Some ["a"; "b"]) (Some ["S1"; "S2"])
          (Some [RotationList [[0; 0; 0]]; RotationList [[0; 0; 0]]]%Z)
          (Some (inserted empty
                   (zip3 ["a"; "b"] ["S1"; "S2"]
                      [RotationList [[0; 0; 0]];
                       RotationList [[0; 0; 0]]]%Z))), []),
       Ok (sum_list (len <$> grids))).
Proof.
  apply (size_of_generated_library (fun ident => ident) stub_generator
           ["a"; "b"] ["S1"; "S2"] ["cubic"; "hexagonal"] 1 "angle" []
           [("cubic", 1, "angle"); ("hexagonal", 1, "angle")]).
  reflexivity.
Defined.
